(** * youtube-x-bot: the feed-to-post pipeline of [bot.py]

    A shallow embedding of [src/bot.py].  Python [str] values are sequences
    of Unicode code points; the marker file, the environment and the four
    external services (feed, transcript backend, generative backend, posting
    API) are the fields of a [World]; the functions of the module are
    programs of a small state-and-exception monad whose state is the content
    of the marker file and the log of what the run did. *)

From Stdlib Require Import List NArith Ascii String Bool Lia.
Import ListNotations.

Local Open Scope N_scope.
Local Open Scope list_scope.

(** ** Python strings *)

Module PyStr.

(** A character is a Unicode code point, a [str] a list of them, so that
    [len], slicing and [strip] count code points as Python does. *)
Definition char := N.
Definition str := list char.

(** The source file is UTF-8; a literal of the source is written here as the
    same UTF-8 text and decoded to its code points. *)
Fixpoint utf8_decode (bs : list N) : str :=
  match bs with
  | [] => []
  | b0 :: r0 =>
    if b0 <? 128 then b0 :: utf8_decode r0
    else if b0 <? 224 then
      match r0 with
      | b1 :: r1 =>
        N.lor (N.shiftl (N.land b0 31) 6) (N.land b1 63) :: utf8_decode r1
      | _ => []
      end
    else if b0 <? 240 then
      match r0 with
      | b1 :: b2 :: r2 =>
        N.lor (N.shiftl (N.land b0 15) 12)
          (N.lor (N.shiftl (N.land b1 63) 6) (N.land b2 63)) :: utf8_decode r2
      | _ => []
      end
    else
      match r0 with
      | b1 :: b2 :: b3 :: r3 =>
        N.lor (N.shiftl (N.land b0 7) 18)
          (N.lor (N.shiftl (N.land b1 63) 12)
             (N.lor (N.shiftl (N.land b2 63) 6) (N.land b3 63))) :: utf8_decode r3
      | _ => []
      end
  end.

Definition lit (s : string) : str :=
  utf8_decode (map N_of_ascii (list_ascii_of_string s)).

(** The two characters a literal of this file cannot hold. *)
Definition LF : char := 10.
Definition CR : char := 13.
Definition nl : str := [LF].
Definition dq : str := [34].

Definition str_eq_dec (a b : str) : {a = b} + {a <> b} :=
  list_eq_dec N.eq_dec a b.

Definition str_eqb (a b : str) : bool :=
  if str_eq_dec a b then true else false.

(** [str.isspace] for one character: the code points CPython's
    [_PyUnicode_IsWhitespace] accepts. *)
Definition isspace (c : char) : bool :=
  ((9 <=? c) && (c <=? 13)) || ((28 <=? c) && (c <=? 32))
  || (c =? 133) || (c =? 160) || (c =? 5760)
  || ((8192 <=? c) && (c <=? 8202))
  || (c =? 8232) || (c =? 8233) || (c =? 8239) || (c =? 8287) || (c =? 12288).

Fixpoint lstrip (s : str) : str :=
  match s with
  | [] => []
  | c :: r => if isspace c then lstrip r else s
  end.

Definition rstrip (s : str) : str := rev (lstrip (rev s)).

(** [s.strip()] *)
Definition strip (s : str) : str := rstrip (lstrip s).

(** [s[:n]] for a non-negative [n] *)
Definition slice_to (n : N) (s : str) : str := firstn (N.to_nat n) s.

(** What a text-mode [read()] returns for the stored characters: the file is
    opened with the default [newline=None], so "\r\n" and a lone "\r" both
    come back as "\n". *)
Fixpoint universal_newlines (s : str) : str :=
  match s with
  | [] => []
  | c :: r =>
    if c =? CR then
      LF :: match r with
            | d :: r' => if d =? LF then universal_newlines r' else universal_newlines r
            | [] => universal_newlines r
            end
    else c :: universal_newlines r
  end.

(** Truth value of [os.environ.get(...)] and of an optional string: [None]
    and the empty string are false. *)
Definition truthy (o : option str) : bool :=
  match o with
  | Some (_ :: _) => true
  | _ => false
  end.

(** [all([...])] *)
Definition all (l : list (option str)) : bool := forallb truthy l.

(** [f"{x}"] for a value that is a string or [None]. *)
Definition format_opt (o : option str) : str :=
  match o with
  | Some s => s
  | None => lit "None"
  end.

End PyStr.
Import PyStr.

Arguments lit : simpl never.

(** ** The world a run executes in *)

(** Exceptions, all of them subclasses of [Exception]; [str(e)] is the
    message. *)
Inductive exn :=
| ValueError (msg : str)
| OSError (msg : str)
| ServiceError (msg : str).

Definition exn_str (e : exn) : str :=
  match e with
  | ValueError m | OSError m | ServiceError m => m
  end.

(** What a call does: return a value or raise. *)
Inductive outcome (A : Type) :=
| Ret (a : A)
| Raise (e : exn).
Arguments Ret {A} a.
Arguments Raise {A} e.

(** A feed entry, with the four attributes [main] reads.  An entry that
    lacks one of them, on which the attribute access raises
    [AttributeError], is not a value of this type. *)
Record entry := Entry {
  yt_videoid : str;
  title : str;
  link : str;
  summary : str
}.

(** The snippets of a caption track. *)
Definition transcript := list str.

(** The arguments of [tweepy.Client(...)]. *)
Record Client := mkClient {
  consumer_key : option str;
  consumer_secret : option str;
  access_token : option str;
  access_token_secret : option str
}.

Inductive mode := ModeR | ModeW.

(** Everything outside the module: the environment variables read at import,
    the clock, the libraries it calls and the file system's willingness to
    open the marker file. *)
Record World := {
  GEMINI_API_KEY : option str;
  TWITTER_API_KEY : option str;
  TWITTER_API_SECRET : option str;
  TWITTER_ACCESS_TOKEN : option str;
  TWITTER_ACCESS_TOKEN_SECRET : option str;
  (* str(datetime.datetime.now()) *)
  now : str;
  (* feedparser.parse(url).entries *)
  feedparser_parse : str -> outcome (list entry);
  (* hasattr(YouTubeTranscriptApi, 'get_transcript') *)
  has_get_transcript : bool;
  (* YouTubeTranscriptApi.get_transcript(video_id, languages=...) *)
  get_transcript : str -> list str -> outcome transcript;
  (* YouTubeTranscriptApi().fetch(video_id, languages=...) *)
  fetch : str -> list str -> outcome transcript;
  (* TextFormatter().format_transcript(transcript) *)
  format_transcript : transcript -> outcome str;
  (* genai.configure(api_key=k); genai.GenerativeModel(m).generate_content(p).text *)
  generate_content : option str -> str -> str -> outcome str;
  (* client.create_tweet(text=t).data['id'], formatted *)
  create_tweet : Client -> str -> outcome str;
  (* the exception open(LAST_VIDEO_FILE, mode) raises, if any *)
  open_error : mode -> option exn;
  (* when f.write(s), or the close that ends the with block, fails on the
     file open(LAST_VIDEO_FILE, "w") has just truncated: the exception, and
     the text the file is left with (empty when nothing reached it) *)
  write_error : str -> option (exn * str)
}.

(** ** What a run leaves behind *)

Inductive component := TranscriptFetcher | Summarizer | Publisher.

Inductive value :=
| VNone
| VStr (s : str)
| VBool (b : bool).

(** The log of a run.  [Stdout] and the four requests are what the outside
    sees; [Enter] and [Leave] mark the start and the end of a call of one of
    the module's own functions, with its arguments and with what it returned
    or raised. *)
Inductive event :=
| Stdout (line : str)
| FeedRequest (url : str)
| TranscriptRequest (static : bool) (video_id : str) (languages : list str)
| GenerateRequest (api_key : option str) (model : str) (prompt : str)
| TweetRequest (client : Client) (text : str)
| Enter (c : component) (args : list str)
| Leave (c : component) (r : outcome value).

(** [fs] is the content of [LAST_VIDEO_FILE], [None] while the file does not
    exist; [trace] has the oldest event first.  The content is text: a file
    whose bytes cannot be decoded, on which [f.read()] raises, is not a value
    of this type. *)
Record state := mkState {
  fs : option str;
  trace : list event
}.

Definition init (file : option str) : state := mkState file [].

(** ** The monad of the module's functions *)

Definition M (A : Type) := state -> outcome A * state.

Definition ret {A} (a : A) : M A := fun st => (Ret a, st).

Definition raise {A} (e : exn) : M A := fun st => (Raise e, st).

Definition bind {A B} (m : M A) (k : A -> M B) : M B :=
  fun st =>
    match m st with
    | (Ret a, st') => k a st'
    | (Raise e, st') => (Raise e, st')
    end.

(** [try: m  except Exception as e: h e] *)
Definition try_except {A} (m : M A) (h : exn -> M A) : M A :=
  fun st =>
    match m st with
    | (Ret a, st') => (Ret a, st')
    | (Raise e, st') => h e st'
    end.

Notation "x <- m ;; k" := (bind m (fun x => k))
  (at level 61, m at next level, right associativity).
Notation "m ;; k" := (bind m (fun _ => k))
  (at level 61, right associativity).

Definition emit (e : event) : M unit :=
  fun st => (Ret tt, mkState (fs st) (trace st ++ [e])).

Definition print (line : str) : M unit := emit (Stdout line).

(** A call of an outside service: logged, then answered by the world. *)
Definition request {A} (e : event) (answer : outcome A) : M A :=
  emit e ;; fun st => (answer, st).

(** A call of one of the module's functions, logged on entry and on exit. *)
Definition traced {A} (c : component) (args : list str) (inj : A -> value)
    (body : M A) : M A :=
  emit (Enter c args) ;;
  try_except
    (a <- body ;; emit (Leave c (Ret (inj a))) ;; ret a)
    (fun e => emit (Leave c (Raise e)) ;; raise e).

(** A computation of a library that touches neither the file nor the log. *)
Definition lift {A} (answer : outcome A) : M A := fun st => (answer, st).

Definition content_of (st : state) : str :=
  match fs st with
  | Some c => c
  | None => []
  end.

(** [os.path.exists(LAST_VIDEO_FILE)] *)
Definition path_exists : M bool :=
  fun st => (Ret (match fs st with Some _ => true | None => false end), st).

(** [open(LAST_VIDEO_FILE, mode)]: raises what the world says; "r" needs the
    file, "w" creates or truncates it. *)
Definition open_file (w : World) (m : mode) : M unit :=
  fun st =>
    match open_error w m with
    | Some e => (Raise e, st)
    | None =>
      match m with
      | ModeR =>
        match fs st with
        | Some _ => (Ret tt, st)
        | None => (Raise (OSError (lit "No such file or directory")), st)
        end
      | ModeW => (Ret tt, mkState (Some []) (trace st))
      end
    end.

(** [f.read()] in text mode. *)
Definition f_read : M str :=
  fun st => (Ret (universal_newlines (content_of st)), st).

(** [f.write(s)] in text mode and the close that follows, where
    [os.linesep] is "\n" (POSIX): the characters are stored as they are,
    unless the write fails, which leaves in the file what the world says. *)
Definition f_write (w : World) (s : str) : M unit :=
  fun st =>
    match write_error w s with
    | Some (e, kept) => (Raise e, mkState (Some kept) (trace st))
    | None => (Ret tt, mkState (Some (content_of st ++ s)) (trace st))
    end.

(** ** The module *)

Module Bot.

Definition RSS_URL : str :=
  lit "https://www.youtube.com/feeds/videos.xml?channel_id=UCnwTpaRmErJXgJTrVixeSNA".

Definition get_latest_video (w : World) : M (option entry) :=
  entries <- request (FeedRequest RSS_URL) (feedparser_parse w RSS_URL) ;;
  match entries with
  | e :: _ => ret (Some e)
  | [] => ret None
  end.

Definition get_last_processed_video_id (w : World) : M (option str) :=
  ex <- path_exists ;;
  if ex : bool then
    open_file w ModeR ;;
    s <- f_read ;;
    ret (Some (strip s))
  else ret None.

Definition save_last_processed_video_id (w : World) (video_id : str) : M unit :=
  open_file w ModeW ;;
  f_write w video_id.

Definition opt_value (o : option str) : value :=
  match o with
  | Some s => VStr s
  | None => VNone
  end.

Definition get_video_transcript (w : World) (video_id : str) : M (option str) :=
  traced TranscriptFetcher [video_id] opt_value
    (try_except
       (transcript <-
          (if has_get_transcript w
           then request (TranscriptRequest true video_id [lit "ko"])
                        (get_transcript w video_id [lit "ko"])
           else request (TranscriptRequest false video_id [lit "ko"])
                        (fetch w video_id [lit "ko"])) ;;
        text <- lift (format_transcript w transcript) ;;
        ret (Some text))
       (fun e =>
          print (lit "Error fetching transcript: " ++ exn_str e) ;;
          ret None)).

(** The f-string of [summarize_with_gemini], line by line. *)
Definition prompt (text video_title : str) : str :=
  nl ++
  lit "    당신은 인기 있는 소셜 미디어 인플루언서입니다. " ++ nl ++
  lit "    아래는 유튜브 영상 " ++ dq ++ video_title ++ dq ++
    lit "의 자막(또는 내용)입니다." ++ nl ++
  lit "    이 내용을 바탕으로 X(구 트위터)에 올릴 매력적이고 핵심적인 요약글을 작성해주세요." ++ nl ++
  lit "    " ++ nl ++
  lit "    조건:" ++ nl ++
  lit "    1. 한국어로 작성하세요." ++ nl ++
  lit "    2. 핵심 내용을 3~5줄 내외로 요약하세요." ++ nl ++
  lit "    3. 문체는 친근하고 매력적으로 (" ++ dq ++ lit "해요" ++ dq ++ lit "체 등)." ++ nl ++
  lit "    4. 해시태그를 2~3개 포함하세요." ++ nl ++
  lit "    5. 전체 길이는 250자를 넘지 않도록 주의하세요 (링크 제외)." ++ nl ++
  lit "    " ++ nl ++
  lit "    내용:" ++ nl ++
  lit "    " ++ slice_to 10000 text ++
    lit "  # Limit input text length to avoid token limits if necessary" ++ nl ++
  lit "    ".

Definition summarize_with_gemini (w : World) (text video_title : str) : M str :=
  traced Summarizer [text; video_title] VStr
    (if negb (truthy (GEMINI_API_KEY w)) then
       raise (ValueError (lit "GEMINI_API_KEY is not set."))
     else
       let model := lit "gemini-1.5-flash" in
       let prompt := prompt text video_title in
       request (GenerateRequest (GEMINI_API_KEY w) model prompt)
               (generate_content w (GEMINI_API_KEY w) model prompt)).

Definition post_to_twitter (w : World) (text video_link : str) : M bool :=
  traced Publisher [text; video_link] VBool
    (if negb (all [TWITTER_API_KEY w; TWITTER_API_SECRET w;
                   TWITTER_ACCESS_TOKEN w; TWITTER_ACCESS_TOKEN_SECRET w]) then
       raise (ValueError (lit "Twitter API keys are missing."))
     else
       let client :=
         mkClient (TWITTER_API_KEY w) (TWITTER_API_SECRET w)
                  (TWITTER_ACCESS_TOKEN w) (TWITTER_ACCESS_TOKEN_SECRET w) in
       let tweet_content := text ++ nl ++ nl ++ video_link in
       try_except
         (id <- request (TweetRequest client tweet_content)
                        (create_tweet w client tweet_content) ;;
          print (lit "Tweet posted successfully! ID: " ++ id) ;;
          ret true)
         (fun e =>
            print (lit "Error posting to Twitter: " ++ exn_str e) ;;
            ret false)).

(** [video_id == last_id], where [last_id] may be [None]. *)
Definition eq_marker (video_id : str) (last_id : option str) : bool :=
  match last_id with
  | Some s => str_eqb video_id s
  | None => false
  end.

(** The value given to [content_to_summarize] when there is no transcript. *)
Definition fallback_content (video_title description : str) : str :=
  lit "제목: " ++ video_title ++ nl ++ nl ++ lit "설명: " ++ description.

Definition main (w : World) : M unit :=
  print (lit "Checking for new videos at " ++ now w ++ lit "...") ;;
  latest_video <- get_latest_video w ;;
  (* if not latest_video: an entry, a dict with its attributes, is true *)
  match latest_video with
  | None => print (lit "No videos found in feed.")
  | Some latest_video =>
    let video_id := yt_videoid latest_video in
    let video_title := title latest_video in
    let video_link := link latest_video in
    last_id <- get_last_processed_video_id w ;;
    print (lit "Latest video: " ++ video_title ++ lit " (" ++ video_id ++ lit ")") ;;
    print (lit "Last processed video: " ++ format_opt last_id) ;;
    if eq_marker video_id last_id then
      print (lit "No new video found. Exiting.")
    else
      print (lit "New video detected! Processing...") ;;
      (* 1. Get Transcript *)
      transcript <- get_video_transcript w video_id ;;
      content_to_summarize <-
        match transcript with
        | Some (c :: t) => ret (c :: t)
        | _ =>
          (* if not transcript: None or the empty string *)
          print (lit "Transcript not available. Using description instead.") ;;
          ret (fallback_content video_title (summary latest_video))
        end ;;
      (* 2. Summarize *)
      generated <-
        try_except
          (summary <- summarize_with_gemini w content_to_summarize video_title ;;
           print (lit "Summary generated:") ;;
           print summary ;;
           ret (Some summary))
          (fun e =>
             print (lit "Failed to generate summary: " ++ exn_str e) ;;
             ret None) ;;
      match generated with
      | None => ret tt
      | Some summary =>
        (* 3. Post to Twitter *)
        posted <- post_to_twitter w summary video_link ;;
        if posted : bool then
          save_last_processed_video_id w video_id ;;
          print (lit "Successfully processed video: " ++ video_id)
        else
          print (lit "Failed to post to Twitter.")
      end
  end.

End Bot.
Import Bot.

Arguments prompt : simpl never.
Arguments fallback_content : simpl never.
Arguments RSS_URL : simpl never.
Arguments strip : simpl never.
Arguments universal_newlines : simpl never.
Arguments slice_to : simpl never.
Arguments truthy : simpl never.
Arguments all : simpl never.
Arguments eq_marker : simpl never.

(** ** Reading the log *)

Definition component_eqb (a b : component) : bool :=
  match a, b with
  | TranscriptFetcher, TranscriptFetcher
  | Summarizer, Summarizer
  | Publisher, Publisher => true
  | _, _ => false
  end.

(** The arguments of every call of [c], in order. *)
Fixpoint calls (c : component) (tr : list event) : list (list str) :=
  match tr with
  | [] => []
  | Enter c' args :: r =>
    if component_eqb c c' then args :: calls c r else calls c r
  | _ :: r => calls c r
  end.

(** What every call of [c] returned or raised, in order. *)
Fixpoint returns (c : component) (tr : list event) : list (outcome value) :=
  match tr with
  | [] => []
  | Leave c' v :: r =>
    if component_eqb c c' then v :: returns c r else returns c r
  | _ :: r => returns c r
  end.

(** The requests made to the transcript backend. *)
Fixpoint transcript_requests (tr : list event) : list (str * list str) :=
  match tr with
  | [] => []
  | TranscriptRequest _ v l :: r => (v, l) :: transcript_requests r
  | _ :: r => transcript_requests r
  end.

(** The prompts sent to the generative backend. *)
Fixpoint prompts (tr : list event) : list str :=
  match tr with
  | [] => []
  | GenerateRequest _ _ p :: r => p :: prompts r
  | _ :: r => prompts r
  end.

(** The texts submitted to the posting API. *)
Fixpoint tweets (tr : list event) : list str :=
  match tr with
  | [] => []
  | TweetRequest _ t :: r => t :: tweets r
  | _ :: r => tweets r
  end.

(** The lines printed. *)
Fixpoint printed (tr : list event) : list str :=
  match tr with
  | [] => []
  | Stdout l :: r => l :: printed r
  | _ :: r => printed r
  end.

(** A run of the program from a given marker file. *)
Definition run (w : World) (file : option str) : outcome unit * state :=
  main w (init file).

Definition exit_of (w : World) (file : option str) : outcome unit := fst (run w file).
Definition marker_after (w : World) (file : option str) : option str := fs (snd (run w file)).
Definition log_of (w : World) (file : option str) : list event := trace (snd (run w file)).

(** The marker as [main] reads it at the start of a run. *)
Definition marker_read (w : World) (file : option str) : outcome (option str) :=
  fst (get_last_processed_video_id w (init file)).

(** The answer of the transcript backend to the one request
    [get_video_transcript] makes. *)
Definition backend_answer (w : World) (video_id : str) : outcome transcript :=
  if has_get_transcript w
  then get_transcript w video_id [lit "ko"]
  else fetch w video_id [lit "ko"].

(** ** The strings of the specification *)

(** The composition of title and description in the words of the
    specification: "title: <title>\n\ndescription: <description>". *)
Definition spec_fallback_composition (video_title description : str) : str :=
  lit "title: " ++ video_title ++ nl ++ nl ++ lit "description: " ++ description.

(** Everything the template puts before the interpolated text. *)
Definition prompt_head (video_title : str) : str :=
  nl ++
  lit "    당신은 인기 있는 소셜 미디어 인플루언서입니다. " ++ nl ++
  lit "    아래는 유튜브 영상 " ++ dq ++ video_title ++ dq ++
    lit "의 자막(또는 내용)입니다." ++ nl ++
  lit "    이 내용을 바탕으로 X(구 트위터)에 올릴 매력적이고 핵심적인 요약글을 작성해주세요." ++ nl ++
  lit "    " ++ nl ++
  lit "    조건:" ++ nl ++
  lit "    1. 한국어로 작성하세요." ++ nl ++
  lit "    2. 핵심 내용을 3~5줄 내외로 요약하세요." ++ nl ++
  lit "    3. 문체는 친근하고 매력적으로 (" ++ dq ++ lit "해요" ++ dq ++ lit "체 등)." ++ nl ++
  lit "    4. 해시태그를 2~3개 포함하세요." ++ nl ++
  lit "    5. 전체 길이는 250자를 넘지 않도록 주의하세요 (링크 제외)." ++ nl ++
  lit "    " ++ nl ++
  lit "    내용:" ++ nl ++
  lit "    ".

(** The characters of the inline comment of the prompt template. *)
Definition limit_comment : str :=
  lit "  # Limit input text length to avoid token limits if necessary".

(** No leading and no trailing whitespace. *)
Definition no_outer_space (s : str) : bool :=
  match s with
  | [] => true
  | c :: _ => negb (isspace c)
  end &&
  match rev s with
  | [] => true
  | c :: _ => negb (isspace c)
  end.

(** ** Worlds of the examples *)

Definition key : option str := Some (lit "k").

(** Every credential set, a feed whose newest entry is the video of the
    scenario, no caption track, a backend that answers with the summary of
    the scenario, a posting API that accepts the post; [werr] is what opening
    the marker file raises. *)
Definition scenario_world (werr : mode -> option exn) : World := {|
  GEMINI_API_KEY := key;
  TWITTER_API_KEY := key;
  TWITTER_API_SECRET := key;
  TWITTER_ACCESS_TOKEN := key;
  TWITTER_ACCESS_TOKEN_SECRET := key;
  now := lit "2024-01-01 00:00:00.000000";
  feedparser_parse := fun _ =>
    Ret [Entry (lit "xyz789") (lit "Test Video") (lit "https://youtu.be/xyz789")
               (lit "desc text")];
  has_get_transcript := true;
  get_transcript := fun _ _ => Raise (ServiceError (lit "Subtitles are disabled"));
  fetch := fun _ _ => Raise (ServiceError (lit "Subtitles are disabled"));
  format_transcript := fun t => Ret (List.concat t);
  generate_content := fun _ _ _ => Ret (lit "요약 텍스트 #tag1 #tag2");
  create_tweet := fun _ _ => Ret (lit "1");
  open_error := werr;
  write_error := fun _ => None
|}.

Definition no_io_error (m : mode) : option exn := None.

(** The world of the scenario with [GEMINI_API_KEY] unset. *)
Definition keyless_world : World := {|
  GEMINI_API_KEY := None;
  TWITTER_API_KEY := key;
  TWITTER_API_SECRET := key;
  TWITTER_ACCESS_TOKEN := key;
  TWITTER_ACCESS_TOKEN_SECRET := key;
  now := now (scenario_world no_io_error);
  feedparser_parse := feedparser_parse (scenario_world no_io_error);
  has_get_transcript := false;
  get_transcript := get_transcript (scenario_world no_io_error);
  fetch := fetch (scenario_world no_io_error);
  format_transcript := format_transcript (scenario_world no_io_error);
  generate_content := generate_content (scenario_world no_io_error);
  create_tweet := create_tweet (scenario_world no_io_error);
  open_error := no_io_error;
  write_error := fun _ => None
|}.

Definition read_only_fs (m : mode) : option exn :=
  match m with
  | ModeR => None
  | ModeW => Some (OSError (lit "Permission denied"))
  end.

(** The world of the scenario on a full disk: the marker file opens, and is
    truncated, but nothing can be written to it. *)
Definition disk_full_world : World := {|
  GEMINI_API_KEY := key;
  TWITTER_API_KEY := key;
  TWITTER_API_SECRET := key;
  TWITTER_ACCESS_TOKEN := key;
  TWITTER_ACCESS_TOKEN_SECRET := key;
  now := now (scenario_world no_io_error);
  feedparser_parse := feedparser_parse (scenario_world no_io_error);
  has_get_transcript := true;
  get_transcript := get_transcript (scenario_world no_io_error);
  fetch := fetch (scenario_world no_io_error);
  format_transcript := format_transcript (scenario_world no_io_error);
  generate_content := generate_content (scenario_world no_io_error);
  create_tweet := create_tweet (scenario_world no_io_error);
  open_error := no_io_error;
  write_error := fun _ => Some (OSError (lit "No space left on device"), [])
|}.

(** ** Further readings of the log *)

(** The URLs requested from the feed. *)
Fixpoint feed_requests (tr : list event) : list str :=
  match tr with
  | [] => []
  | FeedRequest u :: r => u :: feed_requests r
  | _ :: r => feed_requests r
  end.

(** Made of whitespace only. *)
Definition all_space (s : str) : bool := forallb isspace s.

(** The four credentials [post_to_twitter] checks. *)
Definition twitter_keys (w : World) : list (option str) :=
  [TWITTER_API_KEY w; TWITTER_API_SECRET w;
   TWITTER_ACCESS_TOKEN w; TWITTER_ACCESS_TOKEN_SECRET w].

(** A world given by the answers that vary between the examples below; the
    credentials not listed are set. *)
Definition example_world (gemini secret : option str) (entries : list entry)
    (captions : outcome transcript) (post : outcome str)
    (werr : mode -> option exn) : World := {|
  GEMINI_API_KEY := gemini;
  TWITTER_API_KEY := key;
  TWITTER_API_SECRET := secret;
  TWITTER_ACCESS_TOKEN := key;
  TWITTER_ACCESS_TOKEN_SECRET := key;
  now := lit "2024-01-01 00:00:00.000000";
  feedparser_parse := fun _ => Ret entries;
  has_get_transcript := false;
  get_transcript := fun _ _ => captions;
  fetch := fun _ _ => captions;
  format_transcript := fun t => Ret (List.concat t);
  generate_content := fun _ _ _ => Ret (lit "요약 텍스트 #tag1 #tag2");
  create_tweet := fun _ _ => post;
  open_error := werr;
  write_error := fun _ => None
|}.

Definition test_video : entry :=
  Entry (lit "xyz789") (lit "Test Video") (lit "https://youtu.be/xyz789")
        (lit "desc text").

(** An entry whose id ends with a line feed. *)
Definition padded_video : entry :=
  Entry (lit "xyz789" ++ nl) (lit "Test Video") (lit "https://youtu.be/xyz789")
        (lit "desc text").

Definition no_captions : outcome transcript :=
  Raise (ServiceError (lit "Subtitles are disabled")).

(** Everything works. *)
Definition working_world : World :=
  example_world key key [test_video] (Ret [lit "hello "; lit "world"])
    (Ret (lit "1")) no_io_error.

(** The posting API refuses the post. *)
Definition rejecting_world : World :=
  example_world key key [test_video] no_captions
    (Raise (ServiceError (lit "403 Forbidden"))) no_io_error.

(** The feed has no entries. *)
Definition empty_feed_world : World :=
  example_world key key [] no_captions (Ret (lit "1")) no_io_error.

(** One Twitter credential is the empty string. *)
Definition blank_secret_world : World :=
  example_world key (Some []) [test_video] no_captions (Ret (lit "1")) no_io_error.

(** ** Tactics *)

(** Symbolic execution of a run: the definitions are unfolded and every
    answer of the world is split into its cases, innermost first. *)
Ltac unfold_run :=
  unfold run, main, get_latest_video, get_last_processed_video_id,
    get_video_transcript, summarize_with_gemini, post_to_twitter,
    save_last_processed_video_id, traced, try_except, request, lift,
    print, emit, bind, ret, raise, path_exists, open_file, f_read, f_write,
    init; cbn.

Ltac case_split :=
  match goal with
  | |- context [match ?x with _ => _ end] =>
    lazymatch x with
    | context [match _ with _ => _ end] => fail
    | _ => destruct x eqn:?; cbn
    end
  end.

Ltac symbolic_run w file :=
  unfold exit_of, marker_after, log_of;
  pattern (run w file);
  match goal with
  | |- ?P _ =>
    let Q := fresh "Q" in
    let HQ := fresh "HQ" in
    remember P as Q eqn:HQ;
    unfold_run; repeat case_split;
    subst Q; cbn
  end.

Ltac same_heads :=
  repeat match goal with
         | H : _ :: _ = _ :: _ |- _ => injection H as H; subst
         | H : Ret _ = Ret _ |- _ => injection H as H; subst
         | H : Raise _ = Raise _ |- _ => injection H as H; subst
         | H : VStr _ = VStr _ |- _ => injection H as H; subst
         end.

Ltac side_condition :=
  first [ reflexivity | assumption | discriminate
        | apply negb_true_iff; assumption ].

Ltac not_in_list :=
  vm_compute;
  let H := fresh in
  intros H; repeat (destruct H as [H|H]; [discriminate H|]); exact H.

(** Finds a line among the printed ones. *)
Ltac find_line :=
  repeat match goal with
         | |- ?a = ?b \/ _ => first [constr_eq a b; left; reflexivity | right]
         end.

(** ** Strings *)

Lemma universal_newlines_without_CR (s : str) :
  ~ In CR s -> universal_newlines s = s.
Proof.
  induction s as [|c r IH]; intros H; [reflexivity|].
  unfold universal_newlines; fold universal_newlines.
  destruct (N.eqb_spec c CR) as [->|_].
  - exfalso; apply H; left; reflexivity.
  - rewrite IH; [reflexivity|]. intros Hin; apply H; right; exact Hin.
Qed.

Lemma lstrip_fixed (s : str) :
  match s with [] => true | c :: _ => negb (isspace c) end = true ->
  lstrip s = s.
Proof.
  destruct s as [|c r]; [reflexivity|].
  intros H; apply negb_true_iff in H; simpl; rewrite H; reflexivity.
Qed.

Lemma strip_fixed (s : str) : no_outer_space s = true -> strip s = s.
Proof.
  unfold no_outer_space, strip, rstrip; intros H.
  apply andb_true_iff in H as [Hl Hr].
  rewrite (lstrip_fixed s Hl), (lstrip_fixed (rev s) Hr).
  apply rev_involutive.
Qed.

Lemma slice_to_short (n : N) (s : str) :
  (List.length s <= N.to_nat n)%nat -> slice_to n s = s.
Proof. unfold slice_to; apply firstn_all2. Qed.

Lemma slice_to_prefix (n : N) (s : str) :
  exists rest, s = slice_to n s ++ rest.
Proof.
  exists (skipn (N.to_nat n) s); unfold slice_to.
  symmetry; apply firstn_skipn.
Qed.

(** ** Whitespace and newlines *)

Lemma list_ind2 {A} (P : list A -> Prop) :
  P [] ->
  (forall c, P [c]) ->
  (forall c d r, P r -> P (d :: r) -> P (c :: d :: r)) ->
  forall l, P l.
Proof.
  intros H0 H1 H2.
  assert (H : forall l, P l /\ forall c, P (c :: l)).
  { induction l as [|d r [IHr IHc]]; split; auto. }
  intros l; apply H.
Qed.

Lemma universal_newlines_other (c : char) (r : str) :
  c <> CR -> universal_newlines (c :: r) = c :: universal_newlines r.
Proof.
  intros H. unfold universal_newlines; fold universal_newlines.
  destruct (N.eqb_spec c CR); [contradiction|reflexivity].
Qed.

Lemma universal_newlines_CR_LF (r : str) :
  universal_newlines (CR :: LF :: r) = LF :: universal_newlines r.
Proof. reflexivity. Qed.

Lemma universal_newlines_CR (r : str) :
  match r with d :: _ => d <> LF | [] => True end ->
  universal_newlines (CR :: r) = LF :: universal_newlines r.
Proof.
  unfold universal_newlines; fold universal_newlines.
  destruct r as [|d r']; [reflexivity|]. intros H. cbn.
  destruct (N.eqb_spec d LF); [contradiction|reflexivity].
Qed.

Lemma universal_newlines_keeps_space (s : str) :
  all_space s = true -> all_space (universal_newlines s) = true.
Proof.
  unfold all_space.
  induction s as [|c|c d r IHr IHdr] using list_ind2; intros H.
  - reflexivity.
  - destruct (N.eq_dec c CR) as [->|Hc]; [reflexivity|].
    rewrite universal_newlines_other by exact Hc. exact H.
  - cbn [forallb] in H. apply andb_true_iff in H as [Hc Hdr].
    destruct (N.eq_dec c CR) as [->|Hc'].
    + destruct (N.eq_dec d LF) as [->|Hd].
      * rewrite universal_newlines_CR_LF. cbn [forallb].
        cbn [forallb] in Hdr. apply andb_true_iff in Hdr as [_ Hr].
        rewrite (IHr Hr). reflexivity.
      * rewrite universal_newlines_CR by exact Hd.
        cbn [forallb]. rewrite (IHdr Hdr). reflexivity.
    + rewrite universal_newlines_other by exact Hc'.
      cbn [forallb]. rewrite Hc, (IHdr Hdr). reflexivity.
Qed.

Lemma universal_newlines_app (a b : str) :
  match b with d :: _ => d <> LF | [] => True end ->
  universal_newlines (a ++ b) = universal_newlines a ++ universal_newlines b.
Proof.
  intros Hb.
  induction a as [|c|c d r IHr IHdr] using list_ind2.
  - reflexivity.
  - destruct (N.eq_dec c CR) as [->|Hc].
    + cbn [app]. rewrite universal_newlines_CR by exact Hb. reflexivity.
    + cbn [app]. rewrite !universal_newlines_other by exact Hc. reflexivity.
  - destruct (N.eq_dec c CR) as [->|Hc].
    + destruct (N.eq_dec d LF) as [->|Hd].
      * cbn [app]. rewrite !universal_newlines_CR_LF, IHr. reflexivity.
      * change ((CR :: d :: r) ++ b) with (CR :: (d :: r) ++ b).
        rewrite (universal_newlines_CR ((d :: r) ++ b)) by exact Hd.
        rewrite (universal_newlines_CR (d :: r)) by exact Hd.
        rewrite IHdr. reflexivity.
    + change ((c :: d :: r) ++ b) with (c :: (d :: r) ++ b).
      rewrite !universal_newlines_other by exact Hc.
      rewrite IHdr. reflexivity.
Qed.

Lemma universal_newlines_app_without_CR (a b : str) :
  ~ In CR a -> universal_newlines (a ++ b) = a ++ universal_newlines b.
Proof.
  induction a as [|c r IH]; intros H; [reflexivity|].
  cbn [app]. rewrite universal_newlines_other.
  - rewrite IH; [reflexivity|]. intros Hin; apply H; right; exact Hin.
  - intros ->. apply H; left; reflexivity.
Qed.

Lemma lstrip_app_space (a s : str) :
  all_space a = true -> lstrip (a ++ s) = lstrip s.
Proof.
  unfold all_space. induction a as [|c r IH]; intros H; [reflexivity|].
  cbn [forallb] in H. apply andb_true_iff in H as [Hc Hr].
  cbn [app lstrip]. rewrite Hc. apply IH, Hr.
Qed.

Lemma lstrip_all_space (a : str) : all_space a = true -> lstrip a = [].
Proof.
  intros H. rewrite <- (app_nil_r a). rewrite lstrip_app_space by exact H.
  reflexivity.
Qed.

Lemma all_space_rev (a : str) : all_space a = true -> all_space (rev a) = true.
Proof.
  unfold all_space. rewrite !forallb_forall.
  intros H x Hx. apply H. apply in_rev. exact Hx.
Qed.

Lemma rstrip_app_space (s b : str) :
  all_space b = true -> rstrip (s ++ b) = rstrip s.
Proof.
  intros H. unfold rstrip. rewrite rev_app_distr.
  rewrite lstrip_app_space by (apply all_space_rev; exact H). reflexivity.
Qed.

Lemma strip_padded (a s b : str) :
  all_space a = true -> all_space b = true -> no_outer_space s = true ->
  strip (a ++ s ++ b) = s.
Proof.
  intros Ha Hb Hs. unfold strip.
  rewrite lstrip_app_space by exact Ha.
  destruct s as [|c r].
  - cbn [app]. rewrite lstrip_all_space by exact Hb. reflexivity.
  - pose proof Hs as Hs'. unfold no_outer_space in Hs'.
    apply andb_true_iff in Hs' as [Hl Hr].
    rewrite lstrip_fixed by exact Hl.
    rewrite rstrip_app_space by exact Hb.
    unfold rstrip. rewrite lstrip_fixed by exact Hr. apply rev_involutive.
Qed.

Lemma lstrip_snoc (x : str) (c : char) :
  isspace c = false -> lstrip (x ++ [c]) = lstrip x ++ [c].
Proof.
  intros Hc. induction x as [|d r IH].
  - cbn. rewrite Hc. reflexivity.
  - cbn [app lstrip]. destruct (isspace d); [exact IH|reflexivity].
Qed.

Lemma lstrip_head (s : str) :
  match lstrip s with [] => true | c :: _ => negb (isspace c) end = true.
Proof.
  induction s as [|c r IH]; [reflexivity|].
  cbn [lstrip]. destruct (isspace c) eqn:Hc; [exact IH|].
  cbn. rewrite Hc. reflexivity.
Qed.

Lemma strip_no_outer_space (s : str) : no_outer_space (strip s) = true.
Proof.
  unfold no_outer_space, strip. apply andb_true_iff. split.
  - pose proof (lstrip_head s) as H.
    destruct (lstrip s) as [|c r]; [reflexivity|].
    apply negb_true_iff in H.
    unfold rstrip. cbn [rev]. rewrite lstrip_snoc by exact H.
    rewrite rev_app_distr. cbn. rewrite H. reflexivity.
  - unfold rstrip. rewrite rev_involutive. apply lstrip_head.
Qed.

Lemma universal_newlines_has_no_CR (s : str) : ~ In CR (universal_newlines s).
Proof.
  induction s as [|c|c d r IHr IHdr] using list_ind2.
  - intros [].
  - destruct (N.eq_dec c CR) as [->|Hc].
    + vm_compute. intros [H|[]]. discriminate H.
    + rewrite universal_newlines_other by exact Hc.
      intros [H|[]]. exact (Hc H).
  - destruct (N.eq_dec c CR) as [->|Hc].
    + destruct (N.eq_dec d LF) as [->|Hd].
      * rewrite universal_newlines_CR_LF. intros [H|H]; [discriminate H|].
        exact (IHr H).
      * rewrite universal_newlines_CR by exact Hd.
        intros [H|H]; [discriminate H|]. exact (IHdr H).
    + rewrite universal_newlines_other by exact Hc.
      intros [H|H]; [exact (Hc H)|]. exact (IHdr H).
Qed.

Lemma lstrip_split (s : str) :
  exists a, all_space a = true /\ s = a ++ lstrip s.
Proof.
  induction s as [|c r (a & Ha & Hs)].
  - exists []. split; reflexivity.
  - cbn [lstrip]. destruct (isspace c) eqn:Hc.
    + exists (c :: a). split.
      * unfold all_space in *. cbn [forallb]. rewrite Hc, Ha. reflexivity.
      * cbn [app]. rewrite <- Hs. reflexivity.
    + exists []. split; reflexivity.
Qed.

Lemma strip_split (s : str) :
  exists a b,
    all_space a = true /\ all_space b = true /\ s = a ++ strip s ++ b.
Proof.
  destruct (lstrip_split s) as (a & Ha & Hs).
  destruct (lstrip_split (rev (lstrip s))) as (b & Hb & Hr).
  exists a, (rev b). split; [exact Ha|]. split.
  - apply all_space_rev, Hb.
  - unfold strip, rstrip. rewrite <- rev_app_distr, <- Hr, rev_involutive.
    exact Hs.
Qed.

Lemma In_lstrip (x : char) (s : str) : In x (lstrip s) -> In x s.
Proof.
  induction s as [|c r IH]; [intros []|].
  cbn [lstrip]. destruct (isspace c); [|exact (fun H => H)].
  intros H. right. exact (IH H).
Qed.

Lemma In_strip (x : char) (s : str) : In x (strip s) -> In x s.
Proof.
  unfold strip, rstrip. intros H.
  apply In_lstrip. apply in_rev. apply In_lstrip. apply in_rev. exact H.
Qed.

(** What reading makes of an id written between whitespace. *)
Lemma strip_read_padded (a s b : str) :
  all_space a = true -> all_space b = true ->
  ~ In CR s -> no_outer_space s = true ->
  strip (universal_newlines (a ++ s ++ b)) = s.
Proof.
  intros Ha Hb Hcr Hs.
  destruct s as [|c r].
  - cbn [app]. unfold strip.
    rewrite lstrip_all_space; [reflexivity|].
    apply universal_newlines_keeps_space.
    unfold all_space in *. rewrite forallb_app, Ha, Hb. reflexivity.
  - rewrite universal_newlines_app.
    + rewrite universal_newlines_app_without_CR by exact Hcr.
      apply strip_padded; try assumption;
        apply universal_newlines_keeps_space; assumption.
    + cbn [app]. unfold no_outer_space in Hs.
      apply andb_true_iff in Hs as [Hl _]. apply negb_true_iff in Hl.
      intros ->. vm_compute in Hl. discriminate Hl.
Qed.

(** Reading gives back the stripped text exactly when the stripped text has
    no carriage return. *)
Lemma strip_read (s : str) :
  strip (universal_newlines s) = strip s <-> ~ In CR (strip s).
Proof.
  split.
  - intros H Hin. rewrite <- H in Hin.
    exact (universal_newlines_has_no_CR s (In_strip _ _ Hin)).
  - intros Hcr.
    destruct (strip_split s) as (a & b & Ha & Hb & Hs).
    rewrite Hs at 1.
    apply strip_read_padded; try assumption. apply strip_no_outer_space.
Qed.

(** ** The state store *)

Lemma save_effect (w : World) (id : str) (st st' : state) :
  save_last_processed_video_id w id st = (Ret tt, st') ->
  open_error w ModeW = None
  /\ write_error w id = None
  /\ st' = mkState (Some id) (trace st).
Proof.
  unfold save_last_processed_video_id, bind, open_file, f_write.
  destruct (open_error w ModeW) as [e|]; [discriminate|].
  cbn. destruct (write_error w id) as [[e kept]|]; [discriminate|].
  intros H; inversion H; auto.
Qed.

Lemma read_after_save (w : World) (id : str) (tr : list event) :
  open_error w ModeR = None ->
  fst (get_last_processed_video_id w (mkState (Some id) tr))
  = Ret (Some (strip (universal_newlines id))).
Proof.
  intros Hr.
  unfold get_last_processed_video_id, bind, path_exists, open_file, f_read, ret.
  cbn. rewrite Hr. reflexivity.
Qed.

(** C9, as amended: once [save_last_processed_video_id id] has succeeded, a
    [get_last_processed_video_id] that can open the file returns [id] with
    its leading and trailing whitespace stripped exactly when the stripped
    id holds no carriage return; in particular it returns [id] itself for
    every id without carriage return and without leading or trailing
    whitespace. *)
Theorem marker_round_trip (w : World) (id : str) (st st' : state) :
  open_error w ModeR = None ->
  save_last_processed_video_id w id st = (Ret tt, st') ->
  (fst (get_last_processed_video_id w st') = Ret (Some (strip id))
   <-> ~ In CR (strip id))
  /\ (no_outer_space id = true -> ~ In CR id ->
      fst (get_last_processed_video_id w st') = Ret (Some id)).
Proof.
  intros Hr Hsave.
  apply save_effect in Hsave as (_ & _ & ->).
  rewrite (read_after_save w id (trace st) Hr).
  split.
  - rewrite <- strip_read. split.
    + intros H. injection H as H. exact H.
    + intros H. rewrite H. reflexivity.
  - intros Hs Hcr.
    rewrite (universal_newlines_without_CR id Hcr), (strip_fixed id Hs).
    reflexivity.
Qed.

Lemma marker_round_trip_witness :
  fst (get_last_processed_video_id (scenario_world no_io_error)
         (mkState (Some (lit "xyz789" ++ [13; 10])) []))
  = Ret (Some (strip (lit "xyz789" ++ [13; 10]))).
Proof.
  refine (proj2 (proj1 (marker_round_trip (scenario_world no_io_error)
                          (lit "xyz789" ++ [13; 10]) (init None)
                          (mkState (Some (lit "xyz789" ++ [13; 10])) []) _ _))
                _).
  - reflexivity.
  - vm_compute. reflexivity.
  - not_in_list.
Defined.

(** C9, as stated, fails: after saving the id "a\rb" the marker is read back
    as "a\nb", which is not the id with its outer whitespace stripped. *)
Lemma marker_round_trip_carriage_return :
  save_last_processed_video_id (scenario_world no_io_error) [97; 13; 98] (init None)
  = (Ret tt, mkState (Some [97; 13; 98]) [])
  /\ fst (get_last_processed_video_id (scenario_world no_io_error)
            (mkState (Some [97; 13; 98]) []))
     = Ret (Some [97; 10; 98])
  /\ strip [97; 13; 98] = [97; 13; 98]
  /\ fst (get_last_processed_video_id (scenario_world no_io_error)
            (mkState (Some [97; 13; 98]) []))
     <> Ret (Some (strip [97; 13; 98])).
Proof.
  repeat split; try reflexivity.
  vm_compute; discriminate.
Qed.

(** ** The transcript fetcher *)

(** C7: for every video id, [get_video_transcript] returns and never raises;
    it makes exactly one request, for the "ko" track of that video; and every
    failure of the backend or of the formatter becomes [None]. *)
Theorem transcript_single_attempt (w : World) (video_id : str) (st : state) :
  exists evs,
    get_video_transcript w video_id st
    = (Ret (match backend_answer w video_id with
            | Ret t =>
              match format_transcript w t with
              | Ret s => Some s
              | Raise _ => None
              end
            | Raise _ => None
            end),
       mkState (fs st) (trace st ++ evs))
    /\ transcript_requests evs = [(video_id, [lit "ko"])].
Proof.
  unfold get_video_transcript, backend_answer, traced, try_except, request,
    lift, print, emit, bind, ret, raise.
  destruct (has_get_transcript w); cbn.
  - destruct (get_transcript w video_id [lit "ko"]) as [t|e]; cbn.
    + destruct (format_transcript w t) as [s|e]; cbn;
        rewrite <- !app_assoc; eexists; split; reflexivity.
    + rewrite <- !app_assoc; eexists; split; reflexivity.
  - destruct (fetch w video_id [lit "ko"]) as [t|e]; cbn.
    + destruct (format_transcript w t) as [s|e]; cbn;
        rewrite <- !app_assoc; eexists; split; reflexivity.
    + rewrite <- !app_assoc; eexists; split; reflexivity.
Qed.

(** ** The summarizer *)

Lemma prompt_shape (text video_title : str) :
  prompt text video_title
  = prompt_head video_title ++ slice_to 10000 text ++ limit_comment
    ++ nl ++ lit "    ".
Proof.
  unfold prompt, prompt_head, limit_comment.
  rewrite <- !app_assoc. reflexivity.
Qed.

Lemma summarize_sends_prompt (w : World) (text video_title : str) (st : state) :
  exists r evs,
    summarize_with_gemini w text video_title st
    = (r, mkState (fs st) (trace st ++ evs))
    /\ prompts evs
       = if truthy (GEMINI_API_KEY w) then [prompt text video_title] else [].
Proof.
  unfold summarize_with_gemini, traced, try_except, request, emit, bind, ret, raise.
  destruct (truthy (GEMINI_API_KEY w)); cbn.
  - destruct (generate_content w (GEMINI_API_KEY w) (lit "gemini-1.5-flash")
                (prompt text video_title)) as [s|e]; cbn;
      rewrite <- !app_assoc; eexists; eexists; split; reflexivity.
  - rewrite <- !app_assoc; eexists; eexists; split; reflexivity.
Qed.

(** C8: the prompt sent to the generative backend is a fixed text around the
    first 10000 characters of the source text: what is included is a prefix
    of the source of at most 10000 characters, and the whole source when it
    has at most 10000 characters. *)
Theorem prompt_text_is_bounded (w : World) (video_title : str) :
  exists pre post, forall (text : str) (st : state),
    exists r evs,
      summarize_with_gemini w text video_title st
      = (r, mkState (fs st) (trace st ++ evs))
      /\ prompts evs
         = (if truthy (GEMINI_API_KEY w)
            then [pre ++ slice_to 10000 text ++ post] else [])
      /\ N.of_nat (List.length (slice_to 10000 text))
         = N.min 10000 (N.of_nat (List.length text))
      /\ (exists rest, text = slice_to 10000 text ++ rest)
      /\ ((N.of_nat (List.length text) <= 10000)%N -> slice_to 10000 text = text).
Proof.
  exists (prompt_head video_title), (limit_comment ++ nl ++ lit "    ").
  intros text st.
  destruct (summarize_sends_prompt w text video_title st) as (r & evs & Hrun & Hp).
  exists r, evs. split; [exact Hrun|]. split.
  - rewrite Hp, prompt_shape. reflexivity.
  - split; [|split].
    + unfold slice_to. rewrite length_firstn. lia.
    + apply slice_to_prefix.
    + intros H. apply slice_to_short. lia.
Qed.

Lemma prompt_text_is_bounded_witness :
  slice_to 10000 (lit "desc text") = lit "desc text".
Proof.
  destruct (prompt_text_is_bounded (scenario_world no_io_error) (lit "Test Video"))
    as (pre & post & H).
  destruct (H (lit "desc text") (init None)) as (r & evs & _ & _ & _ & _ & Hs).
  apply Hs. vm_compute. discriminate.
Defined.

(** C10: whatever the source text and the title, the prompt sent to the
    generative backend has, immediately after the (truncated) source text,
    the characters of the inline comment of the template. *)
Theorem prompt_carries_comment (w : World) (video_title : str) :
  exists pre post, forall (text : str) (st : state),
    exists r evs,
      summarize_with_gemini w text video_title st
      = (r, mkState (fs st) (trace st ++ evs))
      /\ prompts evs
         = (if truthy (GEMINI_API_KEY w)
            then [pre ++ slice_to 10000 text
                    ++ lit "  # Limit input text length to avoid token limits if necessary"
                    ++ post]
            else [])
      /\ prompt text video_title
         = pre ++ slice_to 10000 text
             ++ lit "  # Limit input text length to avoid token limits if necessary"
             ++ post.
Proof.
  exists (prompt_head video_title), (nl ++ lit "    ").
  intros text st.
  destruct (summarize_sends_prompt w text video_title st) as (r & evs & Hrun & Hp).
  exists r, evs. split; [exact Hrun|].
  rewrite Hp, prompt_shape. split; reflexivity.
Qed.

(** ** Runs of [main] *)

Lemma eq_marker_same (id : str) : eq_marker id (Some id) = true.
Proof.
  unfold eq_marker, str_eqb.
  destruct (str_eq_dec id id) as [_|H]; [reflexivity|].
  exfalso; apply H; reflexivity.
Qed.

(** C6: in every run in which the call of the Summarizer raises, the run
    ends normally with the marker file as it was, the Publisher is not
    called and nothing is submitted to the posting API. *)
Theorem summarizer_failure_stops_run (w : World) (file : option str) (ex : exn) :
  returns Summarizer (log_of w file) = [Raise ex] ->
  marker_after w file = file
  /\ calls Publisher (log_of w file) = []
  /\ tweets (log_of w file) = []
  /\ exit_of w file = Ret tt.
Proof.
  symbolic_run w file; intros H; try discriminate H; repeat split; reflexivity.
Qed.

Lemma summarizer_failure_stops_run_witness :
  marker_after keyless_world (Some (lit "abc123")) = Some (lit "abc123")
  /\ calls Publisher (log_of keyless_world (Some (lit "abc123"))) = []
  /\ tweets (log_of keyless_world (Some (lit "abc123"))) = []
  /\ exit_of keyless_world (Some (lit "abc123")) = Ret tt.
Proof.
  apply (summarizer_failure_stops_run keyless_world (Some (lit "abc123"))
           (ValueError (lit "GEMINI_API_KEY is not set."))).
  reflexivity.
Defined.

(** C2: in every run in which the id of the newest entry of the feed equals
    the marker read at the start, the run ends normally, neither the
    Summarizer nor the Publisher is called, nothing is sent to their
    backends, and the marker file is as it was. *)
Theorem already_processed_is_skipped (w : World) (file : option str)
    (e : entry) (rest : list entry) :
  feedparser_parse w RSS_URL = Ret (e :: rest) ->
  marker_read w file = Ret (Some (yt_videoid e)) ->
  exit_of w file = Ret tt
  /\ calls Summarizer (log_of w file) = []
  /\ calls Publisher (log_of w file) = []
  /\ prompts (log_of w file) = []
  /\ tweets (log_of w file) = []
  /\ marker_after w file = file.
Proof.
  intros Hfeed Hread.
  unfold marker_read, get_last_processed_video_id, bind, path_exists,
    open_file, f_read, ret, init in Hread.
  symbolic_run w file; cbn in Hread; same_heads;
    try discriminate;
    try (repeat split; reflexivity).
  all: match goal with
       | H : eq_marker _ _ = false |- _ =>
         rewrite Hread, eq_marker_same in H; discriminate H
       end.
Qed.

Lemma already_processed_is_skipped_witness :
  marker_after (scenario_world no_io_error) (Some (lit "xyz789"))
  = Some (lit "xyz789").
Proof.
  refine (proj2 (proj2 (proj2 (proj2 (proj2
    (already_processed_is_skipped (scenario_world no_io_error)
       (Some (lit "xyz789"))
       (Entry (lit "xyz789") (lit "Test Video") (lit "https://youtu.be/xyz789")
              (lit "desc text")) [] _ _)))))); reflexivity.
Defined.

(** C3, as amended: in every run in which the transcript fetch returns
    absence, the Summarizer is called once, with the title and with the
    content "제목: <title>\n\n설명: <description>" built from the title and
    the description of the newest entry. *)
Theorem fallback_content_is_summarized (w : World) (file : option str) :
  returns TranscriptFetcher (log_of w file) = [Ret VNone] ->
  exists e rest,
    feedparser_parse w RSS_URL = Ret (e :: rest)
    /\ calls Summarizer (log_of w file)
       = [[lit "제목: " ++ title e ++ nl ++ nl ++ lit "설명: " ++ summary e;
           title e]].
Proof.
  symbolic_run w file; intros H; try discriminate H;
    eexists; eexists; (split; [reflexivity|]); reflexivity.
Qed.

Lemma fallback_content_is_summarized_witness :
  exists e rest,
    feedparser_parse (scenario_world no_io_error) RSS_URL = Ret (e :: rest)
    /\ calls Summarizer (log_of (scenario_world no_io_error) (Some (lit "abc123")))
       = [[lit "제목: " ++ title e ++ nl ++ nl ++ lit "설명: " ++ summary e;
           title e]].
Proof.
  apply (fallback_content_is_summarized (scenario_world no_io_error)
           (Some (lit "abc123"))).
  reflexivity.
Defined.

(** C3, as stated, fails: in the run of the scenario the transcript fetch
    returns absence and the content given to the Summarizer is not the
    composition "title: Test Video\n\ndescription: desc text". *)
Lemma fallback_content_is_not_spec_composition :
  returns TranscriptFetcher (log_of (scenario_world no_io_error) (Some (lit "abc123")))
  = [Ret VNone]
  /\ calls Summarizer (log_of (scenario_world no_io_error) (Some (lit "abc123")))
     = [[lit "제목: Test Video" ++ nl ++ nl ++ lit "설명: desc text";
         lit "Test Video"]]
  /\ calls Summarizer (log_of (scenario_world no_io_error) (Some (lit "abc123")))
     <> [[spec_fallback_composition (lit "Test Video") (lit "desc text");
          lit "Test Video"]].
Proof.
  split; [reflexivity|]. split; [reflexivity|].
  vm_compute. discriminate.
Qed.

(** C5, as amended: the scenario.  The marker file holds "abc123"; the
    newest entry of the feed has id "xyz789", title "Test Video", link
    "https://youtu.be/xyz789" and description "desc text"; the transcript
    fetch returns absence, the Summarizer returns "요약 텍스트 #tag1 #tag2"
    and the Publisher returns success.  Then the Summarizer is called with
    the content "제목: Test Video\n\n설명: desc text", the text submitted to
    the posting API is "요약 텍스트 #tag1 #tag2\n\nhttps://youtu.be/xyz789",
    and, when the marker file is then opened and written without error, the
    marker file ends up holding exactly "xyz789" and the run ends
    normally. *)
Theorem scenario_new_video (w : World) (rest : list entry) :
  feedparser_parse w RSS_URL
  = Ret (Entry (lit "xyz789") (lit "Test Video") (lit "https://youtu.be/xyz789")
               (lit "desc text") :: rest) ->
  returns TranscriptFetcher (log_of w (Some (lit "abc123"))) = [Ret VNone] ->
  returns Summarizer (log_of w (Some (lit "abc123")))
  = [Ret (VStr (lit "요약 텍스트 #tag1 #tag2"))] ->
  returns Publisher (log_of w (Some (lit "abc123"))) = [Ret (VBool true)] ->
  calls Summarizer (log_of w (Some (lit "abc123")))
  = [[lit "제목: Test Video" ++ nl ++ nl ++ lit "설명: desc text"; lit "Test Video"]]
  /\ calls Publisher (log_of w (Some (lit "abc123")))
     = [[lit "요약 텍스트 #tag1 #tag2"; lit "https://youtu.be/xyz789"]]
  /\ tweets (log_of w (Some (lit "abc123")))
     = [lit "요약 텍스트 #tag1 #tag2" ++ nl ++ nl ++ lit "https://youtu.be/xyz789"]
  /\ (open_error w ModeW = None ->
      write_error w (lit "xyz789") = None ->
      marker_after w (Some (lit "abc123")) = Some (lit "xyz789")
      /\ exit_of w (Some (lit "abc123")) = Ret tt).
Proof.
  intros Hfeed.
  symbolic_run w (Some (lit "abc123")); intros Ht Hs Hp;
    try discriminate; same_heads; try discriminate.
  all: do 3 (split; [reflexivity|]).
  all: intros Ho Hw; try discriminate Ho.
  all: try (split; reflexivity).
  all: cbn in *; congruence.
Qed.

Lemma scenario_new_video_witness :
  marker_after (scenario_world no_io_error) (Some (lit "abc123"))
  = Some (lit "xyz789")
  /\ exit_of (scenario_world no_io_error) (Some (lit "abc123")) = Ret tt.
Proof.
  refine (proj2 (proj2 (proj2
    (scenario_new_video (scenario_world no_io_error) [] _ _ _ _))) _ _).
  - reflexivity.
  - vm_compute. reflexivity.
  - vm_compute. reflexivity.
  - vm_compute. reflexivity.
  - reflexivity.
  - reflexivity.
Defined.

(** C5, as stated, fails: in the scenario on a full disk the transcript fetch
    returns absence, the Summarizer returns the summary, the Publisher
    returns success, and the marker file, truncated by [open] and never
    written, ends up empty, not holding "xyz789". *)
Lemma scenario_marker_lost_on_full_disk :
  returns TranscriptFetcher (log_of disk_full_world (Some (lit "abc123")))
  = [Ret VNone]
  /\ returns Summarizer (log_of disk_full_world (Some (lit "abc123")))
     = [Ret (VStr (lit "요약 텍스트 #tag1 #tag2"))]
  /\ returns Publisher (log_of disk_full_world (Some (lit "abc123")))
     = [Ret (VBool true)]
  /\ marker_after disk_full_world (Some (lit "abc123")) = Some []
  /\ marker_after disk_full_world (Some (lit "abc123")) <> Some (lit "xyz789").
Proof.
  repeat split; try (vm_compute; reflexivity).
  vm_compute. discriminate.
Qed.

(** C1, as amended: in every run, when [post_to_twitter] returns success and
    the marker file is then opened and written without error, the marker file
    afterwards holds exactly the id of the newest entry and the run ends
    normally; and when the publish call does not succeed (it returns failure,
    raises, or is not reached) the marker file is as it was. *)
Theorem marker_follows_publish (w : World) (file : option str) :
  (returns Publisher (log_of w file) = [Ret (VBool true)] ->
   exists e rest,
     feedparser_parse w RSS_URL = Ret (e :: rest)
     /\ (open_error w ModeW = None ->
         write_error w (yt_videoid e) = None ->
         marker_after w file = Some (yt_videoid e)
         /\ exit_of w file = Ret tt))
  /\ (returns Publisher (log_of w file) <> [Ret (VBool true)] ->
      marker_after w file = file).
Proof.
  symbolic_run w file; split; intros H; try discriminate H;
    try reflexivity;
    try (exfalso; apply H; reflexivity).
  all: eexists; eexists; split; [reflexivity|].
  all: intros Ho Hw; try discriminate Ho.
  all: try (split; reflexivity).
  all: cbn in *; congruence.
Qed.

Lemma marker_follows_publish_witness :
  (exists e rest,
     feedparser_parse (scenario_world no_io_error) RSS_URL = Ret (e :: rest)
     /\ (open_error (scenario_world no_io_error) ModeW = None ->
         write_error (scenario_world no_io_error) (yt_videoid e) = None ->
         marker_after (scenario_world no_io_error) (Some (lit "abc123"))
         = Some (yt_videoid e)
         /\ exit_of (scenario_world no_io_error) (Some (lit "abc123")) = Ret tt))
  /\ marker_after (scenario_world no_io_error) (Some (lit "xyz789"))
     = Some (lit "xyz789").
Proof.
  split.
  - refine (proj1 (marker_follows_publish (scenario_world no_io_error)
                     (Some (lit "abc123"))) _).
    vm_compute. reflexivity.
  - refine (proj2 (marker_follows_publish (scenario_world no_io_error)
                     (Some (lit "xyz789"))) _).
    vm_compute. discriminate.
Defined.

(** C1, as stated, fails: in the run of the scenario on a file system that
    refuses to open the marker file for writing, [post_to_twitter] returns
    success and the marker file still holds "abc123", not the id "xyz789" of
    the newest entry. *)
Lemma marker_not_written_after_publish :
  returns Publisher (log_of (scenario_world read_only_fs) (Some (lit "abc123")))
  = [Ret (VBool true)]
  /\ marker_after (scenario_world read_only_fs) (Some (lit "abc123"))
     = Some (lit "abc123")
  /\ marker_after (scenario_world read_only_fs) (Some (lit "abc123"))
     <> Some (lit "xyz789").
Proof.
  split; [reflexivity|]. split; [reflexivity|].
  vm_compute. discriminate.
Qed.




(** * Further properties of the module *)

(** ** Whitespace around the stored id *)

(** What [get_last_processed_video_id] returns for an existing file. *)
Lemma marker_read_existing (w : World) (c : str) :
  open_error w ModeR = None ->
  marker_read w (Some c) = Ret (Some (strip (universal_newlines c))).
Proof. intros H. unfold marker_read, init. apply read_after_save, H. Qed.

(** The stored id is found again whatever whitespace surrounds it in the
    file: for an id without carriage return and without leading or trailing
    whitespace, and paddings [before] and [after] made of whitespace (line
    ends of either kind included), reading the file
    [before ++ id ++ after] gives [id]. *)
Lemma marker_read_ignores_padding (w : World) (before id after : str) :
  open_error w ModeR = None ->
  all_space before = true ->
  all_space after = true ->
  ~ In CR id ->
  no_outer_space id = true ->
  marker_read w (Some (before ++ id ++ after)) = Ret (Some id).
Proof.
  intros Hr Ha Hb Hcr Hs.
  rewrite marker_read_existing by exact Hr.
  rewrite strip_read_padded by assumption. reflexivity.
Qed.


(** ** Runs that skip, and runs that do not *)

Ltac unfold_marker_read H :=
  unfold marker_read, get_last_processed_video_id, bind, path_exists,
    open_file, f_read, ret, init in H.

(** A run whose marker is the id of the newest entry does nothing. *)
Lemma skipped_run (w : World) (file : option str) (e : entry) (rest : list entry) :
  feedparser_parse w RSS_URL = Ret (e :: rest) ->
  marker_read w file = Ret (Some (yt_videoid e)) ->
  exit_of w file = Ret tt
  /\ marker_after w file = file
  /\ transcript_requests (log_of w file) = []
  /\ prompts (log_of w file) = []
  /\ tweets (log_of w file) = []
  /\ calls TranscriptFetcher (log_of w file) = []
  /\ calls Summarizer (log_of w file) = []
  /\ calls Publisher (log_of w file) = [].
Proof.
  intros Hfeed Hread. unfold_marker_read Hread.
  symbolic_run w file; cbn in Hread; same_heads;
    try discriminate;
    try (repeat split; reflexivity).
  all: match goal with
       | H : eq_marker _ _ = false |- _ =>
         rewrite Hread, eq_marker_same in H; discriminate H
       end.
Qed.

(** A run whose marker differs from the id of the newest entry goes on to
    the transcript. *)
Lemma processed_run (w : World) (file : option str) (e : entry)
    (rest : list entry) (m : option str) :
  feedparser_parse w RSS_URL = Ret (e :: rest) ->
  marker_read w file = Ret m ->
  eq_marker (yt_videoid e) m = false ->
  calls TranscriptFetcher (log_of w file) = [[yt_videoid e]]
  /\ transcript_requests (log_of w file) = [(yt_videoid e, [lit "ko"])]
  /\ In (lit "New video detected! Processing...") (printed (log_of w file)).
Proof.
  intros Hfeed Hread Hneq. unfold_marker_read Hread.
  symbolic_run w file; cbn in Hread; same_heads;
    try discriminate; try congruence.
  all: split; [reflexivity|]; split; [reflexivity|]; find_line.
Qed.

(** A run whose publish succeeded and whose marker could be written. *)
Lemma published_run (w : World) (file : option str) (e : entry) (rest : list entry) :
  feedparser_parse w RSS_URL = Ret (e :: rest) ->
  returns Publisher (log_of w file) = [Ret (VBool true)] ->
  open_error w ModeW = None ->
  write_error w (yt_videoid e) = None ->
  marker_after w file = Some (yt_videoid e).
Proof.
  intros Hfeed.
  symbolic_run w file; intros H; try discriminate H;
    intros Ho Hw; try discriminate Ho; same_heads;
    try reflexivity; cbn in *; congruence.
Qed.

(** X1: when the feed has no entries the run ends normally after printing
    "No videos found in feed.": the marker file is as it was, and nothing is
    asked of the transcript backend, the generative backend or the posting
    API. *)
Theorem empty_feed_ends_run (w : World) (file : option str) :
  feedparser_parse w RSS_URL = Ret [] ->
  exit_of w file = Ret tt
  /\ marker_after w file = file
  /\ printed (log_of w file)
     = [lit "Checking for new videos at " ++ now w ++ lit "...";
        lit "No videos found in feed."]
  /\ transcript_requests (log_of w file) = []
  /\ prompts (log_of w file) = []
  /\ tweets (log_of w file) = [].
Proof.
  intros H.
  unfold exit_of, marker_after, log_of, run, main, get_latest_video,
    request, print, emit, bind, ret, init.
  cbn. rewrite H. cbn. repeat split; reflexivity.
Qed.

Lemma empty_feed_ends_run_witness :
  exit_of empty_feed_world (Some (lit "abc123")) = Ret tt.
Proof.
  refine (proj1 (empty_feed_ends_run empty_feed_world (Some (lit "abc123")) _)).
  reflexivity.
Defined.

(** X2: on a first run, when the marker file does not exist, the newest
    entry is always taken as new: "Last processed video: None" is printed
    and the transcript of that entry is requested, whether or not the file
    system would let the marker file be opened. *)
Theorem first_run_processes_newest (w : World) (e : entry) (rest : list entry) :
  feedparser_parse w RSS_URL = Ret (e :: rest) ->
  calls TranscriptFetcher (log_of w None) = [[yt_videoid e]]
  /\ transcript_requests (log_of w None) = [(yt_videoid e, [lit "ko"])]
  /\ In (lit "Last processed video: " ++ lit "None") (printed (log_of w None)).
Proof.
  intros Hfeed.
  destruct (processed_run w None e rest None Hfeed eq_refl eq_refl) as (H1 & H2 & _).
  split; [exact H1|]. split; [exact H2|].
  revert Hfeed. clear.
  symbolic_run w (@None str); intros Hfeed; try discriminate Hfeed;
    cbn [format_opt]; find_line.
Qed.

Lemma first_run_processes_newest_witness :
  calls TranscriptFetcher (log_of working_world None) = [[yt_videoid test_video]].
Proof.
  refine (proj1 (first_run_processes_newest working_world test_video [] _)).
  reflexivity.
Defined.

(** X3: whitespace around the stored id does not matter.  When the marker
    file holds the id of the newest entry between any two runs of whitespace
    (a trailing line end of either kind, say), and the id itself has no
    carriage return and no leading or trailing whitespace, the run is
    skipped: no Summarizer call, no post, the file left as it is. *)
Theorem padded_marker_is_recognised (w : World) (e : entry) (rest : list entry)
    (before after : str) :
  feedparser_parse w RSS_URL = Ret (e :: rest) ->
  open_error w ModeR = None ->
  all_space before = true ->
  all_space after = true ->
  ~ In CR (yt_videoid e) ->
  no_outer_space (yt_videoid e) = true ->
  exit_of w (Some (before ++ yt_videoid e ++ after)) = Ret tt
  /\ calls Summarizer (log_of w (Some (before ++ yt_videoid e ++ after))) = []
  /\ tweets (log_of w (Some (before ++ yt_videoid e ++ after))) = []
  /\ marker_after w (Some (before ++ yt_videoid e ++ after))
     = Some (before ++ yt_videoid e ++ after).
Proof.
  intros Hfeed Hr Ha Hb Hcr Hs.
  pose proof (marker_read_ignores_padding w before (yt_videoid e) after
                Hr Ha Hb Hcr Hs) as Hread.
  destruct (skipped_run w _ e rest Hfeed Hread)
    as (H1 & H2 & _ & _ & H5 & _ & H7 & _).
  auto.
Qed.

Lemma padded_marker_is_recognised_witness :
  tweets (log_of working_world (Some ([32] ++ yt_videoid test_video ++ [13; 10])))
  = [].
Proof.
  refine (proj1 (proj2 (proj2
    (padded_marker_is_recognised working_world test_video [] [32] [13; 10]
       _ _ _ _ _ _)))).
  - reflexivity.
  - reflexivity.
  - vm_compute. reflexivity.
  - vm_compute. reflexivity.
  - not_in_list.
  - vm_compute. reflexivity.
Defined.

(** X4: no double post.  After a run that published and wrote the marker, a
    second run in the same world (the feed still has the same newest entry)
    started from the marker file the first run left calls neither the
    Summarizer nor the Publisher, posts nothing and leaves the marker as it
    is, provided the id has no carriage return and no leading or trailing
    whitespace. *)
Theorem second_run_posts_nothing (w : World) (file : option str)
    (e : entry) (rest : list entry) :
  feedparser_parse w RSS_URL = Ret (e :: rest) ->
  returns Publisher (log_of w file) = [Ret (VBool true)] ->
  open_error w ModeW = None ->
  write_error w (yt_videoid e) = None ->
  open_error w ModeR = None ->
  ~ In CR (yt_videoid e) ->
  no_outer_space (yt_videoid e) = true ->
  marker_after w file = Some (yt_videoid e)
  /\ exit_of w (marker_after w file) = Ret tt
  /\ calls Summarizer (log_of w (marker_after w file)) = []
  /\ calls Publisher (log_of w (marker_after w file)) = []
  /\ tweets (log_of w (marker_after w file)) = []
  /\ marker_after w (marker_after w file) = marker_after w file.
Proof.
  intros Hfeed Hp Ho Hw Hr Hcr Hs.
  rewrite (published_run w file e rest Hfeed Hp Ho Hw).
  split; [reflexivity|].
  assert (Hread : marker_read w (Some (yt_videoid e)) = Ret (Some (yt_videoid e))).
  { rewrite marker_read_existing by exact Hr.
    rewrite universal_newlines_without_CR by exact Hcr.
    rewrite strip_fixed by exact Hs. reflexivity. }
  destruct (skipped_run w _ e rest Hfeed Hread)
    as (H1 & H2 & _ & _ & H5 & _ & H7 & H8).
  auto.
Qed.

Lemma second_run_posts_nothing_witness :
  tweets (log_of working_world (marker_after working_world (Some (lit "abc123"))))
  = [].
Proof.
  refine (proj1 (proj2 (proj2 (proj2 (proj2
    (second_run_posts_nothing working_world (Some (lit "abc123")) test_video []
       _ _ _ _ _ _ _)))))).
  - reflexivity.
  - vm_compute. reflexivity.
  - reflexivity.
  - reflexivity.
  - reflexivity.
  - not_in_list.
  - vm_compute. reflexivity.
Defined.

(** X5: the marker is stripped when read but the id of the feed is compared
    as it is, so an id with leading or trailing whitespace is never
    recognised: whatever the marker file holds, such an entry is taken as
    new and its transcript is requested. *)
Theorem unstripped_id_is_never_recognised (w : World) (file : option str)
    (e : entry) (rest : list entry) :
  feedparser_parse w RSS_URL = Ret (e :: rest) ->
  (file <> None -> open_error w ModeR = None) ->
  no_outer_space (yt_videoid e) = false ->
  calls TranscriptFetcher (log_of w file) = [[yt_videoid e]].
Proof.
  intros Hfeed Hr Hs.
  destruct file as [c|].
  - assert (Hopen : open_error w ModeR = None) by (apply Hr; discriminate).
    refine (proj1 (processed_run w (Some c) e rest _ Hfeed
                     (marker_read_existing w c Hopen) _)).
    unfold eq_marker, str_eqb.
    destruct (str_eq_dec _ _) as [Heq|_]; [|reflexivity].
    rewrite Heq, strip_no_outer_space in Hs. discriminate Hs.
  - exact (proj1 (processed_run w None e rest None Hfeed eq_refl eq_refl)).
Qed.

Lemma unstripped_id_is_never_recognised_witness :
  calls TranscriptFetcher
    (log_of (example_world key key [padded_video] no_captions (Ret (lit "1"))
               no_io_error)
            (Some (yt_videoid padded_video)))
  = [[yt_videoid padded_video]].
Proof.
  apply (unstripped_id_is_never_recognised
           (example_world key key [padded_video] no_captions (Ret (lit "1"))
              no_io_error)
           (Some (yt_videoid padded_video)) padded_video []).
  - reflexivity.
  - intros _. reflexivity.
  - vm_compute. reflexivity.
Defined.

(** X6: a marker file that is empty or holds only whitespace reads as the
    empty string, which no entry with a non-empty id matches: the newest
    entry is taken as new. *)
Theorem blank_marker_is_no_marker (w : World) (c : str)
    (e : entry) (rest : list entry) :
  feedparser_parse w RSS_URL = Ret (e :: rest) ->
  open_error w ModeR = None ->
  all_space c = true ->
  yt_videoid e <> [] ->
  marker_read w (Some c) = Ret (Some [])
  /\ calls TranscriptFetcher (log_of w (Some c)) = [[yt_videoid e]].
Proof.
  intros Hfeed Hr Hc Hid.
  assert (Hread : marker_read w (Some c) = Ret (Some [])).
  { rewrite marker_read_existing by exact Hr. unfold strip.
    rewrite lstrip_all_space; [reflexivity|].
    apply universal_newlines_keeps_space, Hc. }
  split; [exact Hread|].
  refine (proj1 (processed_run w (Some c) e rest _ Hfeed Hread _)).
  unfold eq_marker, str_eqb.
  destruct (str_eq_dec _ _) as [Heq|_]; [contradiction|reflexivity].
Qed.

Lemma blank_marker_is_no_marker_witness :
  calls TranscriptFetcher (log_of working_world (Some [10]))
  = [[yt_videoid test_video]].
Proof.
  refine (proj2 (blank_marker_is_no_marker working_world [10] test_video []
                   _ _ _ _)).
  - reflexivity.
  - reflexivity.
  - vm_compute. reflexivity.
  - vm_compute. discriminate.
Defined.

(** ** Credentials *)

Lemma truthy_blank (k : option str) : k = None \/ k = Some [] -> truthy k = false.
Proof. intros [->| ->]; reflexivity. Qed.

Lemma all_false_of_blank (l : list (option str)) (k : option str) :
  In k l -> k = None \/ k = Some [] -> all l = false.
Proof.
  intros Hin Hk. unfold all.
  destruct (forallb truthy l) eqn:E; [|reflexivity].
  rewrite forallb_forall in E. specialize (E k Hin).
  rewrite (truthy_blank k Hk) in E. discriminate E.
Qed.

(** X7: without a Gemini credential ([GEMINI_API_KEY] unset or empty) a run
    never reaches the generative backend, never calls the Publisher, posts
    nothing and leaves the marker file as it is; when the run gets as far as
    the Summarizer, that call raises [ValueError], the failure is printed
    and the run ends normally. *)
Theorem missing_gemini_key_posts_nothing (w : World) (file : option str) :
  truthy (GEMINI_API_KEY w) = false ->
  prompts (log_of w file) = []
  /\ calls Publisher (log_of w file) = []
  /\ tweets (log_of w file) = []
  /\ marker_after w file = file
  /\ (calls Summarizer (log_of w file) <> [] ->
      returns Summarizer (log_of w file)
      = [Raise (ValueError (lit "GEMINI_API_KEY is not set."))]
      /\ In (lit "Failed to generate summary: " ++ lit "GEMINI_API_KEY is not set.")
            (printed (log_of w file))
      /\ exit_of w file = Ret tt).
Proof.
  intros Hkey.
  symbolic_run w file;
    try match goal with
        | H : negb (truthy _) = false |- _ => rewrite Hkey in H; discriminate H
        end.
  all: do 4 (split; [reflexivity|]).
  all: intros Hcall; try (exfalso; apply Hcall; reflexivity).
  all: split; [reflexivity|]; split; [find_line|reflexivity].
Qed.

Lemma missing_gemini_key_posts_nothing_witness :
  exit_of keyless_world (Some (lit "abc123")) = Ret tt.
Proof.
  refine (proj2 (proj2 (proj2 (proj2 (proj2 (proj2
    (missing_gemini_key_posts_nothing keyless_world (Some (lit "abc123")) _))))
    _))).
  - reflexivity.
  - vm_compute. discriminate.
Defined.

(** X8: [post_to_twitter] needs all four credentials.  When one of them is
    unset or is the empty string the call raises [ValueError] at once:
    nothing is submitted to the posting API and nothing is printed. *)
Theorem post_needs_all_credentials (w : World) (k : option str)
    (text video_link : str) (st : state) :
  In k (twitter_keys w) ->
  k = None \/ k = Some [] ->
  exists evs,
    post_to_twitter w text video_link st
    = (Raise (ValueError (lit "Twitter API keys are missing.")),
       mkState (fs st) (trace st ++ evs))
    /\ tweets evs = []
    /\ printed evs = [].
Proof.
  intros Hin Hk.
  pose proof (all_false_of_blank _ _ Hin Hk) as Hall.
  unfold twitter_keys in Hall.
  unfold post_to_twitter, traced, try_except, emit, bind, raise.
  rewrite Hall. cbn. rewrite <- !app_assoc.
  eexists; split; [reflexivity|]. split; reflexivity.
Qed.

Lemma post_needs_all_credentials_witness :
  exists evs,
    post_to_twitter blank_secret_world (lit "summary") (link test_video) (init None)
    = (Raise (ValueError (lit "Twitter API keys are missing.")),
       mkState (fs (init None)) (trace (init None) ++ evs))
    /\ tweets evs = []
    /\ printed evs = [].
Proof.
  refine (post_needs_all_credentials blank_secret_world (Some [])
            (lit "summary") (link test_video) (init None) _ _).
  - right; left; reflexivity.
  - right; reflexivity.
Defined.

(** X9: a post the API refuses is not an error of the run.  With the four
    credentials set, when [create_tweet] raises, [post_to_twitter] returns
    [False]: the text was submitted once, and the only line printed is
    "Error posting to Twitter: " followed by the message. *)
Theorem post_failure_is_reported (w : World) (text video_link : str)
    (st : state) (ex : exn) :
  all (twitter_keys w) = true ->
  create_tweet w
    (mkClient (TWITTER_API_KEY w) (TWITTER_API_SECRET w)
              (TWITTER_ACCESS_TOKEN w) (TWITTER_ACCESS_TOKEN_SECRET w))
    (text ++ nl ++ nl ++ video_link) = Raise ex ->
  exists evs,
    post_to_twitter w text video_link st
    = (Ret false, mkState (fs st) (trace st ++ evs))
    /\ tweets evs = [text ++ nl ++ nl ++ video_link]
    /\ printed evs = [lit "Error posting to Twitter: " ++ exn_str ex].
Proof.
  intros Hall Hex. unfold twitter_keys in Hall.
  unfold post_to_twitter, traced, try_except, request, print, emit, bind, ret, raise.
  rewrite Hall. cbn. cbn in Hex. rewrite Hex. cbn. rewrite <- !app_assoc.
  eexists; split; [reflexivity|]. split; reflexivity.
Qed.

Lemma post_failure_is_reported_witness :
  exists evs,
    post_to_twitter rejecting_world (lit "summary") (link test_video) (init None)
    = (Ret false, mkState (fs (init None)) (trace (init None) ++ evs))
    /\ tweets evs = [lit "summary" ++ nl ++ nl ++ link test_video]
    /\ printed evs
       = [lit "Error posting to Twitter: "
            ++ exn_str (ServiceError (lit "403 Forbidden"))].
Proof.
  refine (post_failure_is_reported rejecting_world (lit "summary")
            (link test_video) (init None) (ServiceError (lit "403 Forbidden")) _ _).
  - vm_compute. reflexivity.
  - reflexivity.
Defined.

(** ** What is summarized and what is posted *)

(** X10: whenever the Publisher is called, it is called once, with the text
    the generative backend returned for the prompt of this run, unchanged
    (it is not shortened), and with the link of the newest entry; and the
    only text ever submitted to the posting API is that text, an empty line
    and the link. *)
Theorem publisher_gets_summary_and_link (w : World) (file : option str) :
  calls Publisher (log_of w file) <> [] ->
  exists e rest s content,
    feedparser_parse w RSS_URL = Ret (e :: rest)
    /\ calls Summarizer (log_of w file) = [[content; title e]]
    /\ generate_content w (GEMINI_API_KEY w) (lit "gemini-1.5-flash")
         (prompt content (title e)) = Ret s
    /\ returns Summarizer (log_of w file) = [Ret (VStr s)]
    /\ calls Publisher (log_of w file) = [[s; link e]]
    /\ (forall t, In t (tweets (log_of w file)) -> t = s ++ nl ++ nl ++ link e).
Proof.
  symbolic_run w file; intros H; try (exfalso; apply H; reflexivity).
  all: eexists; eexists; eexists; eexists.
  all: split; [reflexivity|]; split; [reflexivity|].
  all: split; [first [reflexivity | eassumption]|].
  all: split; [reflexivity|]; split; [reflexivity|].
  all: intros t Ht; cbn in Ht; try contradiction.
  all: destruct Ht as [<-|[]]; reflexivity.
Qed.

Lemma publisher_gets_summary_and_link_witness :
  exists e rest s content,
    feedparser_parse working_world RSS_URL = Ret (e :: rest)
    /\ calls Summarizer (log_of working_world (Some (lit "abc123")))
       = [[content; title e]]
    /\ generate_content working_world (GEMINI_API_KEY working_world)
         (lit "gemini-1.5-flash") (prompt content (title e)) = Ret s
    /\ returns Summarizer (log_of working_world (Some (lit "abc123")))
       = [Ret (VStr s)]
    /\ calls Publisher (log_of working_world (Some (lit "abc123")))
       = [[s; link e]]
    /\ (forall t, In t (tweets (log_of working_world (Some (lit "abc123")))) ->
        t = s ++ nl ++ nl ++ link e).
Proof.
  refine (publisher_gets_summary_and_link working_world (Some (lit "abc123")) _).
  vm_compute. discriminate.
Defined.

(** X11: a transcript is preferred to the description.  When the transcript
    fetch returns a text, the Summarizer is called once with that text and
    the title, unless the text is empty: an empty transcript counts as none
    and the title-and-description composition is used. *)
Theorem transcript_text_is_summarized (w : World) (file : option str) (v : str) :
  returns TranscriptFetcher (log_of w file) = [Ret (VStr v)] ->
  exists e rest,
    feedparser_parse w RSS_URL = Ret (e :: rest)
    /\ calls Summarizer (log_of w file)
       = [[match v with
            | [] => fallback_content (title e) (summary e)
            | _ :: _ => v
            end; title e]].
Proof.
  symbolic_run w file; intros H; try discriminate H; same_heads.
  all: eexists; eexists; split; reflexivity.
Qed.

Lemma transcript_text_is_summarized_witness :
  exists e rest,
    feedparser_parse working_world RSS_URL = Ret (e :: rest)
    /\ calls Summarizer (log_of working_world None)
       = [[match lit "hello world" with
            | [] => fallback_content (title e) (summary e)
            | _ :: _ => lit "hello world"
            end; title e]].
Proof.
  refine (transcript_text_is_summarized working_world None (lit "hello world") _).
  vm_compute. reflexivity.
Defined.

(** X12: no retries.  Every run asks the feed exactly once, for [RSS_URL],
    and makes at most one request to the transcript backend, at most one to
    the generative backend and at most one to the posting API. *)
Theorem one_request_per_service (w : World) (file : option str) :
  feed_requests (log_of w file) = [RSS_URL]
  /\ (List.length (transcript_requests (log_of w file)) <= 1)%nat
  /\ (List.length (prompts (log_of w file)) <= 1)%nat
  /\ (List.length (tweets (log_of w file)) <= 1)%nat.
Proof.
  symbolic_run w file; repeat split; try reflexivity; cbn; lia.
Qed.

(** X13: a run that ends with an exception after something was submitted to
    the posting API is a run whose publish succeeded and whose marker could
    not be saved: either [open] raised the exception, and the marker file is
    as it was, or the write after it did, and the marker file holds what the
    failed write left. *)
Theorem crash_after_post_is_write_error (w : World) (file : option str) (ex : exn) :
  exit_of w file = Raise ex ->
  tweets (log_of w file) <> [] ->
  returns Publisher (log_of w file) = [Ret (VBool true)]
  /\ ((open_error w ModeW = Some ex /\ marker_after w file = file)
      \/ (open_error w ModeW = None
          /\ exists e rest kept,
               feedparser_parse w RSS_URL = Ret (e :: rest)
               /\ write_error w (yt_videoid e) = Some (ex, kept)
               /\ marker_after w file = Some kept)).
Proof.
  symbolic_run w file; intros H; try discriminate H; same_heads;
    intros Ht; try (exfalso; apply Ht; reflexivity).
  all: split; [reflexivity|].
  all: first
         [ left; split; [first [reflexivity | assumption]|reflexivity]
         | right; split; [first [reflexivity | assumption]|];
           eexists; eexists; eexists;
           split; [first [reflexivity | eassumption]|];
           split; [first [reflexivity | eassumption]|reflexivity] ].
Qed.

Lemma crash_after_post_is_write_error_witness :
  returns Publisher (log_of disk_full_world (Some (lit "abc123")))
  = [Ret (VBool true)]
  /\ ((open_error disk_full_world ModeW
       = Some (OSError (lit "No space left on device"))
       /\ marker_after disk_full_world (Some (lit "abc123"))
          = Some (lit "abc123"))
      \/ (open_error disk_full_world ModeW = None
          /\ exists e rest kept,
               feedparser_parse disk_full_world RSS_URL = Ret (e :: rest)
               /\ write_error disk_full_world (yt_videoid e)
                  = Some (OSError (lit "No space left on device"), kept)
               /\ marker_after disk_full_world (Some (lit "abc123"))
                  = Some kept)).
Proof.
  refine (crash_after_post_is_write_error disk_full_world
            (Some (lit "abc123")) (OSError (lit "No space left on device")) _ _).
  - vm_compute. reflexivity.
  - vm_compute. discriminate.
Defined.

(** X14: the prompt has 364 characters of template, plus the title, plus at
    most 10000 characters of source text. *)
Theorem prompt_length (text video_title : str) :
  N.of_nat (List.length (prompt text video_title))
  = 364 + N.of_nat (List.length video_title)
    + N.min 10000 (N.of_nat (List.length text)).
Proof.
  rewrite prompt_shape. unfold prompt_head, limit_comment, slice_to.
  rewrite !length_app, length_firstn.
  repeat match goal with
         | |- context [List.length (lit ?s)] =>
           let n := eval vm_compute in (List.length (lit s)) in
           replace (List.length (lit s)) with n by (vm_compute; reflexivity)
         end.
  cbn [List.length nl dq]. lia.
Qed.

(** X15: [get_video_transcript] prints "Error fetching transcript: " and the
    message exactly when the backend or the formatter raised, and prints
    nothing when it returns a transcript; it never touches the marker
    file. *)
Theorem transcript_failure_is_logged (w : World) (video_id : str) (st : state) :
  exists evs,
    snd (get_video_transcript w video_id st) = mkState (fs st) (trace st ++ evs)
    /\ printed evs
       = match backend_answer w video_id with
         | Ret t =>
           match format_transcript w t with
           | Ret _ => []
           | Raise ex => [lit "Error fetching transcript: " ++ exn_str ex]
           end
         | Raise ex => [lit "Error fetching transcript: " ++ exn_str ex]
         end.
Proof.
  unfold get_video_transcript, backend_answer, traced, try_except, request,
    lift, print, emit, bind, ret, raise.
  destruct (has_get_transcript w); cbn.
  - destruct (get_transcript w video_id [lit "ko"]) as [t|e]; cbn.
    + destruct (format_transcript w t) as [s|e]; cbn;
        rewrite <- !app_assoc; eexists; split; reflexivity.
    + rewrite <- !app_assoc; eexists; split; reflexivity.
  - destruct (fetch w video_id [lit "ko"]) as [t|e]; cbn.
    + destruct (format_transcript w t) as [s|e]; cbn;
        rewrite <- !app_assoc; eexists; split; reflexivity.
    + rewrite <- !app_assoc; eexists; split; reflexivity.
Qed.
